(** * Shallow embedding of llama_index/indices/struct_store/sql_query.py

    The text-to-SQL query engines: SQL extraction from a model completion,
    the table-context providers, the four-stage query orchestrator
    (BaseSQLTableQueryEngine and its subclasses) and the legacy
    NLStructStoreQueryEngine.  Python strings are modelled as Rocq
    [string]s (ASCII), dicts as stdpp [gmap]s, exceptions as [Err]. *)

From Stdlib Require Import Ascii String.
From stdpp Require Import base gmap strings list.

Open Scope string_scope.

(* ------------------------------------------------------------------ *)
(** ** Python string primitives *)

Module PyStr.

(** [s.startswith(pat)] *)
Definition startswith (s pat : string) : bool := String.prefix pat s.

(** [s.find(pat)]: [None] models the [-1] of Python. *)
Fixpoint find (s pat : string) : option nat :=
  if String.prefix pat s then Some 0
  else match s with
       | EmptyString => None
       | String _ s' => option_map S (find s' pat)
       end.

(** [pat in s] *)
Definition contains (s pat : string) : bool :=
  match find s pat with Some _ => true | None => false end.

(** [s[n:]] *)
Fixpoint drop (n : nat) (s : string) : string :=
  match n, s with
  | O, _ => s
  | S _, EmptyString => EmptyString
  | S n', String _ s' => drop n' s'
  end.

(** [s[:n]] *)
Fixpoint take (n : nat) (s : string) : string :=
  match n, s with
  | O, _ => EmptyString
  | S _, EmptyString => EmptyString
  | S n', String c s' => String c (take n' s')
  end.

(** [str.isspace] on one ASCII character: \t \n \v \f \r, the separators
    \x1c-\x1f and the space. *)
Definition isspace (c : ascii) : bool :=
  let n := nat_of_ascii c in
  ((9 <=? n)%nat && (n <=? 13)%nat) || ((28 <=? n)%nat && (n <=? 32)%nat).

Fixpoint lstrip_by (p : ascii -> bool) (s : string) : string :=
  match s with
  | EmptyString => EmptyString
  | String c s' => if p c then lstrip_by p s' else s
  end.

Fixpoint rstrip_by (p : ascii -> bool) (s : string) : string :=
  match s with
  | EmptyString => EmptyString
  | String c s' =>
      let r := rstrip_by p s' in
      match r with
      | EmptyString => if p c then EmptyString else String c EmptyString
      | _ => String c r
      end
  end.

Definition strip_by (p : ascii -> bool) (s : string) : string :=
  rstrip_by p (lstrip_by p s).

(** [s.strip()] *)
Definition strip (s : string) : string := strip_by isspace s.

(** membership of a character in a string *)
Fixpoint has_char (c : ascii) (s : string) : bool :=
  match s with
  | EmptyString => false
  | String d s' => if ascii_dec c d then true else has_char c s'
  end.

(** [s.strip(chars)]: [chars] is a SET of characters, any of which is
    removed from both ends. *)
Definition strip_chars (s chars : string) : string :=
  strip_by (fun c => has_char c chars) s.

(** [sep.join(l)] *)
Fixpoint join (sep : string) (l : list string) : string :=
  match l with
  | [] => EmptyString
  | [x] => x
  | x :: l' => x +:+ sep +:+ join sep l'
  end.

(** [s.replace(old, new)] for a non-empty [old]: scan left to right, an
    occurrence found at the current position is replaced and skipped
    (the [skip] counter consumes its remaining characters). *)
Fixpoint replace_go (old new : string) (skip : nat) (s : string) : string :=
  match s with
  | EmptyString => EmptyString
  | String c s' =>
      match skip with
      | S k => replace_go old new k s'
      | O =>
          if String.prefix old s
          then new +:+ replace_go old new (String.length old - 1) s'
          else String c (replace_go old new 0 s')
      end
  end.

Definition replace (s old new : string) : string := replace_go old new 0 s.

End PyStr.

(* ------------------------------------------------------------------ *)
(** ** SQL extraction *)

Definition fence : string := "```".

(** The separator ["\n\n"] of the context block. *)
Definition newline : ascii := Ascii.ascii_of_nat 10.
Definition blank_line : string := String newline (String newline EmptyString).

(** [BaseSQLTableQueryEngine._parse_response_to_sql] (lines 278-289). *)
Definition parse_response_to_sql (response : string) : string :=
  let response :=
    match PyStr.find response "SQLQuery:" with
    | Some sql_query_start =>
        let response := PyStr.drop sql_query_start response in
        if PyStr.startswith response "SQLQuery:"
        then PyStr.drop (String.length "SQLQuery:") response
        else response
    | None => response
    end in
  let response :=
    match PyStr.find response "SQLResult:" with
    | Some sql_result_start => PyStr.take sql_result_start response
    | None => response
    end in
  PyStr.strip (PyStr.strip_chars (PyStr.strip response) fence).

(** Second definition, following the words of the spec (section 4.2) for
    comparison: the statement strictly between the markers, trimmed, with
    a leading and a trailing triple-backtick marker removed, trimmed
    again. *)
Definition strip_fence_spec (s : string) : string :=
  let s := if String.prefix fence s then PyStr.drop 3 s else s in
  let n := String.length s in
  if String.eqb (PyStr.drop (n - 3) s) fence then PyStr.take (n - 3) s else s.

Definition extract_sql_spec (completion : string) : string :=
  let after :=
    match PyStr.find completion "SQLQuery:" with
    | Some i => PyStr.drop (i + String.length "SQLQuery:") completion
    | None => completion
    end in
  let between :=
    match PyStr.find after "SQLResult:" with
    | Some j => PyStr.take j after
    | None => after
    end in
  PyStr.strip (strip_fence_spec (PyStr.strip between)).

(* ------------------------------------------------------------------ *)
(** ** Results, metadata and responses *)

(** The exceptions the module raises or lets through. *)
Inductive py_error :=
| ValueError (msg : string)
| CollaboratorError (msg : string).

Inductive result (A : Type) :=
| Ok (a : A)
| Err (e : py_error).
Arguments Ok {A} a.
Arguments Err {A} e.

Definition bind {A B} (m : result A) (k : A -> result B) : result B :=
  match m with Ok a => k a | Err e => Err e end.

Notation "'let?' x := m 'in' k" := (bind m (fun x => k))
  (at level 200, x pattern, m at level 100, k at level 200).

(** Values of a metadata dict: strings, or any other Python object. *)
Inductive py_val :=
| PyStr_v (s : string)
| PyObj (id : nat).

(** [llama_index.response.schema.Response]: text and metadata dict. *)
Record Response := mkResponse {
  response : string;
  metadata : gmap string py_val
}.

(** [dict.update]: [d.update(other)] keeps the keys of [other] over those
    of [d]; stdpp's union is left-biased. *)
Definition dict_update (d other : gmap string py_val) : gmap string py_val :=
  other ∪ d.

(* ------------------------------------------------------------------ *)
(** ** Prompt templates *)

(** Modelled from the spec: the prompt template of llama_index.prompts
    (not under src/) "exposes the set of variable names it declares" and
    supports partial binding.  The declared names are the [{name}] fields
    of the template string, in order of appearance. *)
Record PromptTemplate := mkPrompt {
  template : string;
  partial_kwargs : list (string * string)
}.

Fixpoint scan_vars (s : string) (inside : option string) : list string :=
  match s with
  | EmptyString => []
  | String c s' =>
      match inside with
      | None => if ascii_dec c "{"%char then scan_vars s' (Some "")
                else scan_vars s' None
      | Some buf =>
          if ascii_dec c "}"%char
          then (if String.eqb buf "" then scan_vars s' None
                else buf :: scan_vars s' None)
          else scan_vars s' (Some (buf +:+ String c EmptyString))
      end
  end.

Definition template_vars (p : PromptTemplate) : list string :=
  scan_vars (template p) None.

(** [prompt.partial_format(...)]: binds some of the variables. *)
Definition partial_format (p : PromptTemplate) (kw : list (string * string))
  : PromptTemplate :=
  mkPrompt (template p) (partial_kwargs p ++ kw).

(** [DEFAULT_RESPONSE_SYNTHESIS_PROMPT_TMPL] (lines 36-42). *)
Definition DEFAULT_RESPONSE_SYNTHESIS_PROMPT : PromptTemplate :=
  mkPrompt
    ("Given an input question, synthesize a response from the query results.
" +:+ "Query: {query_str}
" +:+ "SQL: {sql_query}
" +:+ "SQL Response: {sql_response_str}
" +:+ "Response: ") [].

(** [DEFAULT_RESPONSE_SYNTHESIS_PROMPT_TMPL_V2] (lines 49-55). *)
Definition DEFAULT_RESPONSE_SYNTHESIS_PROMPT_V2 : PromptTemplate :=
  mkPrompt
    ("Given an input question, synthesize a response from the query results.
" +:+ "Query: {query_str}
" +:+ "SQL: {sql_query}
" +:+ "SQL Response: {context_str}
" +:+ "Response: ") [].

(** Modelled from the spec: the default text-to-SQL prompts of
    llama_index.prompts.default_prompts (not under src/) take the
    question, the schema block and the dialect name. *)
Definition DEFAULT_TEXT_TO_SQL_PROMPT : PromptTemplate :=
  mkPrompt "Given an input question, create a {dialect} query. Use the tables: {schema}
Question: {query_str}
SQLQuery: " [].

Definition DEFAULT_TEXT_TO_SQL_PGVECTOR_PROMPT : PromptTemplate :=
  mkPrompt "Given an input question, create a {dialect} query; write [query_vector] for the question's embedding. Use the tables: {schema}
Question: {query_str}
SQLQuery: " [].

(* ------------------------------------------------------------------ *)
(** ** Collaborators *)

(** The database wrapper [SQLDatabase] (section 6 of the spec). *)
Record SQLDatabase := mkDatabase {
  dialect : string;
  get_usable_table_names : list string;
  get_single_table_info : string -> string;
  run_sql : string -> result (string * gmap string py_val)
}.

(** The service context: predictor (blocking and non-blocking), response
    synthesizer built by [get_response_synthesizer] from a text-QA
    template (blocking and non-blocking), and [str] of the embedding of a
    question. *)
Record ServiceContext := mkService {
  predict : PromptTemplate -> list (string * string) -> result string;
  apredict : PromptTemplate -> list (string * string) -> result string;
  synthesize : PromptTemplate -> string -> list string -> result Response;
  asynthesize : PromptTemplate -> string -> list string -> result Response;
  query_embedding_str : string -> string
}.

(** An entry of the [tables] list: a name, a sqlalchemy [Table], or any
    other object (with its [str]). *)
Inductive table_ref :=
| TableName (name : string)
| SATable (name : string)
| OtherObject (repr : string).

(** [SQLTableSchema] as returned by the table retriever. *)
Record SQLTableSchema := mkTableSchema {
  table_name : string;
  schema_context_str : option string
}.

(** How [_get_table_context] is implemented by each subclass. *)
Inductive table_context_kind :=
| NLSQLTables (tables : option (list table_ref))
| RetrieverTables (table_retriever : string -> list SQLTableSchema)
                  (context_str_prefix : option string).

(** Which [_parse_response_to_sql] is used. *)
Inductive sql_parser := BaseParser | PGVectorParser.

(** The state of a [BaseSQLTableQueryEngine] after construction. *)
Record BaseSQLTableQueryEngine := mkEngine {
  sql_database : SQLDatabase;
  text_to_sql_prompt : PromptTemplate;
  response_synthesis_prompt : PromptTemplate;
  context_query_kwargs : gmap string string;
  synthesize_response : bool;
  table_context : table_context_kind;
  parser : sql_parser
}.

(* ------------------------------------------------------------------ *)
(** ** Construction *)

(** [_validate_prompt] (lines 235-244): the declared variables (a Python
    list) are compared with those of the V2 default. *)
Definition _validate_prompt (response_synthesis_prompt : PromptTemplate)
  : result unit :=
  if decide (template_vars response_synthesis_prompt
             = template_vars DEFAULT_RESPONSE_SYNTHESIS_PROMPT_V2)
  then Ok tt
  else Err (ValueError ("response_synthesis_prompt must have the following template variables: "
                        +:+ "query_str, sql_query, context_str")).

(** [BaseSQLTableQueryEngine.__init__] (lines 248-271), with the
    [_get_table_context] and [_parse_response_to_sql] of the subclass. *)
Definition BaseSQLTableQueryEngine_init
    (sql_database : SQLDatabase)
    (text_to_sql_prompt : option PromptTemplate)
    (context_query_kwargs : option (gmap string string))
    (synthesize_response : bool)
    (response_synthesis_prompt : option PromptTemplate)
    (kind : table_context_kind) (parser : sql_parser)
  : result BaseSQLTableQueryEngine :=
  let tts := default DEFAULT_TEXT_TO_SQL_PROMPT text_to_sql_prompt in
  let rsp := default DEFAULT_RESPONSE_SYNTHESIS_PROMPT_V2 response_synthesis_prompt in
  let? _ := _validate_prompt rsp in
  Ok (mkEngine sql_database tts rsp (default ∅ context_query_kwargs)
               synthesize_response kind parser).

(** [NLSQLTableQueryEngine.__init__] (lines 383-404). *)
Definition NLSQLTableQueryEngine_init
    (sql_database : SQLDatabase)
    (text_to_sql_prompt : option PromptTemplate)
    (context_query_kwargs : option (gmap string string))
    (synthesize_response : bool)
    (response_synthesis_prompt : option PromptTemplate)
    (tables : option (list table_ref)) : result BaseSQLTableQueryEngine :=
  BaseSQLTableQueryEngine_init sql_database text_to_sql_prompt
    context_query_kwargs synthesize_response response_synthesis_prompt
    (NLSQLTables tables) BaseParser.

(** [PGVectorSQLQueryEngine.__init__] (lines 456-478). *)
Definition PGVectorSQLQueryEngine_init
    (sql_database : SQLDatabase)
    (text_to_sql_prompt : option PromptTemplate)
    (context_query_kwargs : option (gmap string string))
    (synthesize_response : bool)
    (response_synthesis_prompt : option PromptTemplate)
    (tables : option (list table_ref)) : result BaseSQLTableQueryEngine :=
  let tts := default DEFAULT_TEXT_TO_SQL_PGVECTOR_PROMPT text_to_sql_prompt in
  BaseSQLTableQueryEngine_init sql_database (Some tts)
    context_query_kwargs synthesize_response response_synthesis_prompt
    (NLSQLTables tables) PGVectorParser.

(** [SQLTableRetrieverQueryEngine.__init__] (lines 504-527). *)
Definition SQLTableRetrieverQueryEngine_init
    (sql_database : SQLDatabase)
    (table_retriever : string -> list SQLTableSchema)
    (text_to_sql_prompt : option PromptTemplate)
    (context_query_kwargs : option (gmap string string))
    (synthesize_response : bool)
    (response_synthesis_prompt : option PromptTemplate)
    (context_str_prefix : option string) : result BaseSQLTableQueryEngine :=
  BaseSQLTableQueryEngine_init sql_database text_to_sql_prompt
    context_query_kwargs synthesize_response response_synthesis_prompt
    (RetrieverTables table_retriever context_str_prefix) BaseParser.

(* ------------------------------------------------------------------ *)
(** ** Table context *)

(** [table_info] with the optional [context_query_kwargs] annotation
    (lines 421-426 and 434-439). *)
Definition table_info_with_kwargs (db : SQLDatabase)
    (kw : gmap string string) (table_str : string) : string :=
  let table_info := get_single_table_info db table_str in
  match kw !! table_str with
  | Some c => table_info +:+ (" The table description is: " +:+ c)
  | None => table_info
  end.

Definition table_ref_repr (t : table_ref) : string :=
  match t with TableName s | SATable s | OtherObject s => s end.

(** Lines 415-420: [if isinstance(table, Table): table_str = ...], then a
    second, separate [if isinstance(table, str): ... else: raise]. *)
Definition table_str_of (table : table_ref) : result string :=
  let _table_str_from_table :=
    match table with SATable n => Some n | _ => None end in
  match table with
  | TableName s => Ok s
  | _ => Err (ValueError ("Unknown table type: " +:+ table_ref_repr table))
  end.

(** The loop over [self._tables] (lines 414-428). *)
Fixpoint fixed_list_infos (db : SQLDatabase) (kw : gmap string string)
    (tables : list table_ref) : result (list string) :=
  match tables with
  | [] => Ok []
  | table :: rest =>
      let? table_str := table_str_of table in
      let table_info := table_info_with_kwargs db kw table_str in
      let? infos := fixed_list_infos db kw rest in
      Ok (table_info :: infos)
  end.

(** [NLSQLTableQueryEngine._get_table_context] (lines 406-443); the
    branch is taken on the truthiness of [self._tables]. *)
Definition nlsql_get_table_context (db : SQLDatabase)
    (kw : gmap string string) (tables : option (list table_ref))
  : result string :=
  match tables with
  | Some ((_ :: _) as ts) =>
      let? context_strs := fixed_list_infos db kw ts in
      Ok (PyStr.join blank_line context_strs)
  | _ =>
      let table_names := get_usable_table_names db in
      Ok (PyStr.join blank_line (map (table_info_with_kwargs db kw) table_names))
  end.

(** [SQLTableRetrieverQueryEngine._get_table_context] (lines 529-552);
    [if table_schema_obj.context_str:] is false for [None] and [""]. *)
Definition schema_table_info (db : SQLDatabase) (obj : SQLTableSchema) : string :=
  let table_info := get_single_table_info db (table_name obj) in
  match schema_context_str obj with
  | Some c => if String.eqb c "" then table_info
              else table_info +:+ (" The table description is: " +:+ c)
  | None => table_info
  end.

Definition retriever_get_table_context (db : SQLDatabase)
    (table_retriever : string -> list SQLTableSchema)
    (context_str_prefix : option string) (query_str : string) : string :=
  let context_strs :=
    match context_str_prefix with Some p => [p] | None => [] end in
  let table_schema_objs := table_retriever query_str in
  PyStr.join blank_line (context_strs ++ map (schema_table_info db) table_schema_objs).

Definition _get_table_context (eng : BaseSQLTableQueryEngine) (query_str : string)
  : result string :=
  match table_context eng with
  | NLSQLTables tables =>
      nlsql_get_table_context (sql_database eng) (context_query_kwargs eng) tables
  | RetrieverTables retr prefix =>
      Ok (retriever_get_table_context (sql_database eng) retr prefix query_str)
  end.

(* ------------------------------------------------------------------ *)
(** ** SQL extraction of the vector-aware engine *)

Definition query_vector_token : string := "[query_vector]".

(** [raw_sql_str.replace("[query_vector]", str(query_embedding))] *)
Definition substitute_query_vector (svc : ServiceContext) (query_str : string)
    (raw_sql_str : string) : string :=
  let query_embedding_str := query_embedding_str svc query_str in
  PyStr.replace raw_sql_str query_vector_token query_embedding_str.

(** [PGVectorSQLQueryEngine._parse_response_to_sql] (lines 480-498). *)
Definition pgvector_parse_response_to_sql (svc : ServiceContext)
    (response : string) (query_str : string) : string :=
  let response :=
    match PyStr.find response "SQLQuery:" with
    | Some sql_query_start =>
        let response := PyStr.drop sql_query_start response in
        if PyStr.startswith response "SQLQuery:"
        then PyStr.drop (String.length "SQLQuery:") response
        else response
    | None => response
    end in
  let response :=
    match PyStr.find response "SQLResult:" with
    | Some sql_result_start => PyStr.take sql_result_start response
    | None => response
    end in
  let raw_sql_str := PyStr.strip (PyStr.strip_chars (PyStr.strip response) fence) in
  substitute_query_vector svc query_str raw_sql_str.

Definition engine_parse_response_to_sql (eng : BaseSQLTableQueryEngine)
    (svc : ServiceContext) (response : string) (query_str : string) : string :=
  match parser eng with
  | BaseParser => parse_response_to_sql response
  | PGVectorParser => pgvector_parse_response_to_sql svc response query_str
  end.

(* ------------------------------------------------------------------ *)
(** ** The query orchestrator *)

(** [cast(Dict, response.metadata).update(metadata); return response] *)
Definition update_response_metadata (resp : Response)
    (exec_metadata : gmap string py_val) : Response :=
  mkResponse (response resp) (dict_update (metadata resp) exec_metadata).

(** Stages 2-4 of [_query] / [_aquery] (lines 304-335, 342-373) once the
    table context [table_desc_str] is known, with the predictor and the
    synthesizer passed in: [predict]/[synthesize] for [_query],
    [apredict]/[asynthesize] for [_aquery]. *)
Definition query_with_context
    (llm : PromptTemplate -> list (string * string) -> result string)
    (synth : PromptTemplate -> string -> list string -> result Response)
    (eng : BaseSQLTableQueryEngine) (svc : ServiceContext)
    (query_str : string) (table_desc_str : string) : result Response :=
  let db := sql_database eng in
  let? response_str :=
    llm (text_to_sql_prompt eng)
        [("query_str", query_str); ("schema", table_desc_str);
         ("dialect", dialect db)] in
  let sql_query_str := engine_parse_response_to_sql eng svc response_str query_str in
  let? run := run_sql db sql_query_str in
  let raw_response_str := fst run in
  let metadata := <["sql_query" := PyStr_v sql_query_str]> (snd run) in
  if synthesize_response eng then
    let partial_synthesis_prompt :=
      partial_format (response_synthesis_prompt eng) [("sql_query", sql_query_str)] in
    let? resp := synth partial_synthesis_prompt query_str [raw_response_str] in
    Ok (update_response_metadata resp metadata)
  else
    let response_str := raw_response_str in
    Ok (mkResponse response_str metadata).

(** [BaseSQLTableQueryEngine._query] *)
Definition _query (eng : BaseSQLTableQueryEngine) (svc : ServiceContext)
    (query_str : string) : result Response :=
  let? table_desc_str := _get_table_context eng query_str in
  query_with_context (predict svc) (synthesize svc) eng svc query_str table_desc_str.

(** [BaseSQLTableQueryEngine._aquery] *)
Definition _aquery (eng : BaseSQLTableQueryEngine) (svc : ServiceContext)
    (query_str : string) : result Response :=
  let? table_desc_str := _get_table_context eng query_str in
  query_with_context (apredict svc) (asynthesize svc) eng svc query_str table_desc_str.

(* ------------------------------------------------------------------ *)
(** ** The legacy natural-language engine *)

(** The [SQLContextContainer] of the index: a context string, or a dict
    of per-table contexts (in insertion order). *)
Record NLStructStoreQueryEngine := mkNLEngine {
  nl_sql_database : SQLDatabase;
  nl_context_str : option string;
  nl_context_dict : option (list (string * string));
  nl_text_to_sql_prompt : PromptTemplate;
  nl_response_synthesis_prompt : PromptTemplate;
  nl_synthesize_response : bool
}.

(** [NLStructStoreQueryEngine.__init__] (lines 123-145). *)
Definition NLStructStoreQueryEngine_init (db : SQLDatabase)
    (context_str : option string) (context_dict : option (list (string * string)))
    (text_to_sql_prompt : option PromptTemplate) (synthesize_response : bool)
    (response_synthesis_prompt : option PromptTemplate) : NLStructStoreQueryEngine :=
  mkNLEngine db context_str context_dict
    (default DEFAULT_TEXT_TO_SQL_PROMPT text_to_sql_prompt)
    (default DEFAULT_RESPONSE_SYNTHESIS_PROMPT response_synthesis_prompt)
    synthesize_response.

(** [NLStructStoreQueryEngine._parse_response_to_sql] (lines 152-158). *)
Definition nl_parse_response_to_sql (response : string) : string :=
  let response :=
    match PyStr.find response "SQLResult:" with
    | Some sql_result_start => PyStr.take sql_result_start response
    | None => response
    end in
  PyStr.strip response.

(** [NLStructStoreQueryEngine._get_table_context] (lines 160-181). *)
Definition nl_get_table_context (eng : NLStructStoreQueryEngine) : result string :=
  match nl_context_str eng with
  | Some tables_desc_str => Ok tables_desc_str
  | None =>
      match nl_context_dict eng with
      | None => Err (ValueError ("context_dict must be provided. There is currently no "
                                 +:+ "table context."))
      | Some context_dict => Ok (PyStr.join blank_line (map snd context_dict))
      end
  end.

(** [NLStructStoreQueryEngine._query] (lines 183-212). *)
Definition nl_query (eng : NLStructStoreQueryEngine) (svc : ServiceContext)
    (query_str : string) : result Response :=
  let? table_desc_str := nl_get_table_context eng in
  let db := nl_sql_database eng in
  let? response_str :=
    predict svc (nl_text_to_sql_prompt eng)
      [("query_str", query_str); ("schema", table_desc_str); ("dialect", dialect db)] in
  let sql_query_str := nl_parse_response_to_sql response_str in
  let? run := run_sql db sql_query_str in
  let raw_response_str := fst run in
  let metadata := <["sql_query" := PyStr_v sql_query_str]> (snd run) in
  if nl_synthesize_response eng then
    let? response_str :=
      predict svc (nl_response_synthesis_prompt eng)
        [("query_str", query_str); ("sql_query", sql_query_str);
         ("sql_response_str", raw_response_str)] in
    Ok (mkResponse response_str metadata)
  else
    let response_str := raw_response_str in
    Ok (mkResponse response_str metadata).

(** [NLStructStoreQueryEngine._aquery] (lines 214-232). *)
Definition nl_aquery (eng : NLStructStoreQueryEngine) (svc : ServiceContext)
    (query_str : string) : result Response :=
  let? table_desc_str := nl_get_table_context eng in
  let db := nl_sql_database eng in
  let? response_str :=
    apredict svc (nl_text_to_sql_prompt eng)
      [("query_str", query_str); ("schema", table_desc_str); ("dialect", dialect db)] in
  let sql_query_str := nl_parse_response_to_sql response_str in
  let? run := run_sql db sql_query_str in
  let response_str := fst run in
  let metadata := <["sql_query" := PyStr_v sql_query_str]> (snd run) in
  Ok (mkResponse response_str metadata).

(* ================================================================== *)
(** * Concrete collaborators for the examples *)

Definition orders_db : SQLDatabase :=
  mkDatabase "sqlite" ["orders"; "customers"]
    (fun t => "CREATE TABLE " +:+ t)
    (fun sql => Ok ("5", {["result" := PyObj 5]})).

Definition completion_scenario : string :=
  "SQLQuery: SELECT COUNT(*) FROM orders SQLResult: 5".

(** A predictor that always answers the scenario completion, and a
    synthesizer that rewords the result and reports a colliding key. *)
Definition scenario_svc : ServiceContext :=
  mkService
    (fun _ _ => Ok completion_scenario)
    (fun _ _ => Ok completion_scenario)
    (fun _ _ _ => Ok (mkResponse "There are 5 orders."
                        {["sql_query" := PyStr_v "stale"]}))
    (fun _ _ _ => Ok (mkResponse "There are 5 orders."
                        {["sql_query" := PyStr_v "stale"]}))
    (fun _ => "[0.5, 0.25]").

(** The declared names of [l1] and [l2] are the same set. *)
Definition same_names (l1 l2 : list string) : bool :=
  forallb (fun x => existsb (String.eqb x) l2) l1 &&
  forallb (fun x => existsb (String.eqb x) l1) l2.

(** What a successful query of the orchestrator reports: the table
    context, the completion of [llm], the SQL parsed from it that was
    executed, under the key ["sql_query"] of the metadata, and every
    entry of the execution metadata kept with its value. *)
Definition records_executed_sql (eng : BaseSQLTableQueryEngine)
    (svc : ServiceContext)
    (llm : PromptTemplate -> list (string * string) -> result string)
    (q : string) (r : Response) : Prop :=
  exists ctx compl raw md,
    let sql := engine_parse_response_to_sql eng svc compl q in
    _get_table_context eng q = Ok ctx /\
    llm (text_to_sql_prompt eng)
        [("query_str", q); ("schema", ctx); ("dialect", dialect (sql_database eng))]
      = Ok compl /\
    run_sql (sql_database eng) sql = Ok (raw, md) /\
    metadata r !! "sql_query" = Some (PyStr_v sql) /\
    (forall k v, (<["sql_query" := PyStr_v sql]> md) !! k = Some v ->
                 metadata r !! k = Some v).

Definition scenario_engine (synth : bool) : BaseSQLTableQueryEngine :=
  mkEngine orders_db DEFAULT_TEXT_TO_SQL_PROMPT DEFAULT_RESPONSE_SYNTHESIS_PROMPT_V2
    ∅ synth (NLSQLTables None) BaseParser.

Definition scenario_nl_engine : NLStructStoreQueryEngine :=
  NLStructStoreQueryEngine_init orders_db (Some "CREATE TABLE orders") None
    None true None.

Definition empty_retriever (_ : string) : list SQLTableSchema := [].

Definition retriever_engine : BaseSQLTableQueryEngine :=
  mkEngine orders_db DEFAULT_TEXT_TO_SQL_PROMPT DEFAULT_RESPONSE_SYNTHESIS_PROMPT_V2
    ∅ false (RetrieverTables empty_retriever None) BaseParser.

(** What the legacy [_aquery] returned, and what [_query] returns with
    the same collaborators when synthesis is enabled. *)
Definition legacy_async_report (eng : NLStructStoreQueryEngine)
    (svc : ServiceContext) (q : string) (r : Response) : Prop :=
  exists ctx compl raw md,
    let sql := nl_parse_response_to_sql compl in
    let db := nl_sql_database eng in
    let md' := <["sql_query" := PyStr_v sql]> md in
    nl_get_table_context eng = Ok ctx /\
    apredict svc (nl_text_to_sql_prompt eng)
      [("query_str", q); ("schema", ctx); ("dialect", dialect db)] = Ok compl /\
    run_sql db sql = Ok (raw, md) /\
    r = mkResponse raw md' /\
    (nl_synthesize_response eng = true -> apredict svc = predict svc ->
     forall s,
       predict svc (nl_response_synthesis_prompt eng)
         [("query_str", q); ("sql_query", sql); ("sql_response_str", raw)] = Ok s ->
       nl_query eng svc q = Ok (mkResponse s md') /\
       (s <> raw -> nl_query eng svc q <> Ok r)).

(* ------------------------------------------------------------------ *)
(** ** The direct engine *)

(** [SQLStructStoreQueryEngine._query] (lines 85-91): the question is
    run verbatim as SQL; no model call. *)
Definition sql_struct_store_query (db : SQLDatabase) (query_str : string)
  : result Response :=
  let? run := run_sql db query_str in
  let response_str := fst run in
  let metadata := snd run in
  Ok (mkResponse response_str metadata).

(** [SQLStructStoreQueryEngine._aquery] (lines 93-94). *)
Definition sql_struct_store_aquery (db : SQLDatabase) (query_str : string)
  : result Response :=
  sql_struct_store_query db query_str.

(* ------------------------------------------------------------------ *)
(** ** Vocabulary for the further properties *)

Definition first_char (s : string) : option ascii :=
  match s with EmptyString => None | String c _ => Some c end.

Fixpoint last_char (s : string) : option ascii :=
  match s with
  | EmptyString => None
  | String c EmptyString => Some c
  | String _ s' => last_char s'
  end.

(** Neither end of [s] is a whitespace character. *)
Definition is_trimmed (s : string) : Prop :=
  forall c, first_char s = Some c \/ last_char s = Some c ->
            PyStr.isspace c = false.



(** What a successful synthesized query returns: the synthesizer's text,
    produced from the single raw execution result with the prompt bound
    to the executed SQL, and the execution metadata (with ["sql_query"])
    merged over the synthesizer's. *)
Definition synthesis_report (eng : BaseSQLTableQueryEngine) (svc : ServiceContext)
    (q : string) (r : Response) : Prop :=
  exists ctx compl raw md sr,
    let sql := engine_parse_response_to_sql eng svc compl q in
    let exec_md := <["sql_query" := PyStr_v sql]> md in
    _get_table_context eng q = Ok ctx /\
    predict svc (text_to_sql_prompt eng)
      [("query_str", q); ("schema", ctx); ("dialect", dialect (sql_database eng))]
      = Ok compl /\
    run_sql (sql_database eng) sql = Ok (raw, md) /\
    synthesize svc (partial_format (response_synthesis_prompt eng) [("sql_query", sql)])
      q [raw] = Ok sr /\
    response r = response sr /\
    (forall k, metadata r !! k =
               match exec_md !! k with
               | Some v => Some v
               | None => metadata sr !! k
               end).



Definition no_context_nl_engine : NLStructStoreQueryEngine :=
  NLStructStoreQueryEngine_init orders_db None None None true None.

Definition plain_nl_engine : NLStructStoreQueryEngine :=
  NLStructStoreQueryEngine_init orders_db None (Some [("orders", "CREATE TABLE orders")])
    None false None.

(* ================================================================== *)
(** * Examples *)

Example parse_scenario :
  parse_response_to_sql "SQLQuery: SELECT COUNT(*) FROM orders SQLResult: 5"
  = "SELECT COUNT(*) FROM orders".
Proof. vm_compute. reflexivity. Qed.

Example parse_fenced :
  parse_response_to_sql "SQLQuery: ```SELECT 1``` SQLResult: 1" = "SELECT 1".
Proof. vm_compute. reflexivity. Qed.

Example default_v2_vars :
  template_vars DEFAULT_RESPONSE_SYNTHESIS_PROMPT_V2
  = ["query_str"; "sql_query"; "context_str"].
Proof. vm_compute. reflexivity. Qed.

Example scenario_query :
  (let? eng := NLSQLTableQueryEngine_init orders_db None None false None
                 (Some [TableName "orders"]) in
   _query eng scenario_svc "How many rows in orders?")
  = Ok (mkResponse "5" (<["sql_query" := PyStr_v "SELECT COUNT(*) FROM orders"]>
                          {["result" := PyObj 5]})).
Proof. vm_compute. reflexivity. Qed.

Example scenario_context :
  nlsql_get_table_context orders_db ∅ None
  = Ok ("CREATE TABLE orders" +:+ blank_line +:+ "CREATE TABLE customers").
Proof. vm_compute. reflexivity. Qed.

Example direct_engine_runs_question :
  sql_struct_store_aquery orders_db "SELECT COUNT(*) FROM orders"
  = Ok (mkResponse "5" {["result" := PyObj 5]}).
Proof. reflexivity. Qed.

Example legacy_sync_async_differ :
  nl_query scenario_nl_engine scenario_svc "How many rows in orders?"
    <> nl_aquery scenario_nl_engine scenario_svc "How many rows in orders?".
Proof. vm_compute. congruence. Qed.

(* ================================================================== *)
(** * General lemmas *)

Lemma bind_Ok {A B} (m : result A) (k : A -> result B) (b : B) :
  bind m k = Ok b -> exists a, m = Ok a /\ k a = Ok b.
Proof. destruct m as [a|e]; simpl; [eauto | discriminate]. Qed.

Ltac inv_bind H a Ha :=
  apply bind_Ok in H; destruct H as [a [Ha H]].

(** Inversion of stages 2-4: what a successful query went through. *)
Lemma query_with_context_Ok llm synth eng svc q ctx r :
  query_with_context llm synth eng svc q ctx = Ok r ->
  exists compl raw md,
    let sql := engine_parse_response_to_sql eng svc compl q in
    llm (text_to_sql_prompt eng)
        [("query_str", q); ("schema", ctx); ("dialect", dialect (sql_database eng))]
      = Ok compl /\
    run_sql (sql_database eng) sql = Ok (raw, md) /\
    (synthesize_response eng = false ->
       r = mkResponse raw (<["sql_query" := PyStr_v sql]> md)) /\
    (synthesize_response eng = true ->
       exists sr,
         synth (partial_format (response_synthesis_prompt eng) [("sql_query", sql)])
               q [raw] = Ok sr /\
         r = update_response_metadata sr (<["sql_query" := PyStr_v sql]> md)).
Proof.
  unfold query_with_context. intros H.
  inv_bind H compl Hcompl. inv_bind H run Hrun. destruct run as [raw md].
  simpl in H.
  exists compl, raw, md. cbn zeta. split; [exact Hcompl|]. split; [exact Hrun|].
  split.
  - intros Hs. rewrite Hs in H. congruence.
  - intros Hs. rewrite Hs in H. inv_bind H sr Hsr. exists sr. split; [exact Hsr|].
    congruence.
Qed.

(** The execution metadata survives [update_response_metadata]. *)
Lemma update_response_metadata_keeps sr md k v :
  md !! k = Some v -> metadata (update_response_metadata sr md) !! k = Some v.
Proof.
  intros H. unfold update_response_metadata, dict_update. simpl.
  by apply lookup_union_Some_l.
Qed.

Lemma fixed_list_infos_names db kw names :
  fixed_list_infos db kw (map TableName names)
    = Ok (map (table_info_with_kwargs db kw) names).
Proof.
  induction names as [|n names IH]; [reflexivity|].
  simpl. rewrite IH. reflexivity.
Qed.

(** Without a [SQLQuery:] label the whole completion, cropped at the first
    [SQLResult:], goes through the final cleanup. *)
Lemma parse_without_label (response : string) :
  PyStr.contains response "SQLQuery:" = false ->
  parse_response_to_sql response
  = PyStr.strip (PyStr.strip_chars (PyStr.strip
      (match PyStr.find response "SQLResult:" with
       | Some j => PyStr.take j response
       | None => response
       end)) fence).
Proof.
  unfold parse_response_to_sql, PyStr.contains.
  destruct (PyStr.find response "SQLQuery:"); [discriminate | reflexivity].
Qed.

Lemma pgvector_parse_is_substitution svc response q :
  pgvector_parse_response_to_sql svc response q
  = substitute_query_vector svc q (parse_response_to_sql response).
Proof. reflexivity. Qed.

(* ------------------------------------------------------------------ *)
(** ** Lemmas on strings for the placeholder substitution *)

(** stdpp makes [String.append] opaque to [simpl]; these proofs compute
    with it. *)
#[local] Arguments String.append : simpl nomatch.

Lemma append_nil_r (s : string) : s +:+ "" = s.
Proof. induction s; simpl; congruence. Qed.

Lemma prefix_append_self (a b : string) : String.prefix a (a +:+ b) = true.
Proof.
  induction a as [|c a IH]; simpl; [destruct b; reflexivity|].
  destruct (ascii_dec c c); [exact IH | congruence].
Qed.

Lemma prefix_true_append (a b : string) :
  String.prefix a b = true -> exists R, b = a +:+ R.
Proof.
  revert b. induction a as [|c a IH]; intros b H.
  - exists b. reflexivity.
  - destruct b as [|d b]; [discriminate|]. simpl in H.
    destruct (ascii_dec c d) as [Heq|Hne]; [subst d|discriminate].
    destruct (IH b H) as [R ->]. exists R. reflexivity.
Qed.

Lemma append_eq_append (x u y v : string) :
  x +:+ u = y +:+ v ->
  (exists w, y = x +:+ w /\ u = w +:+ v) \/
  (exists w, x = y +:+ w /\ v = w +:+ u).
Proof.
  revert y. induction x as [|c x IH]; intros y H; simpl in *.
  - left. exists y. auto.
  - destruct y as [|d y]; simpl in H.
    + right. exists (String c x). auto.
    + injection H as -> H. destruct (IH y H) as [[w [-> ->]]|[w [-> ->]]].
      * left. exists w. auto.
      * right. exists w. auto.
Qed.

Lemma has_char_append c (a b : string) :
  PyStr.has_char c (a +:+ b) = PyStr.has_char c a || PyStr.has_char c b.
Proof.
  induction a as [|d a IH]; simpl; [reflexivity|].
  destruct (ascii_dec c d); [reflexivity | exact IH].
Qed.

Lemma find_cons c (s pat : string) :
  PyStr.find (String c s) pat
  = if String.prefix pat (String c s) then Some 0
    else option_map S (PyStr.find s pat).
Proof. reflexivity. Qed.

Lemma contains_cons_false c (s pat : string) :
  PyStr.contains (String c s) pat = false ->
  String.prefix pat (String c s) = false /\ PyStr.contains s pat = false.
Proof.
  unfold PyStr.contains. rewrite find_cons. intros H.
  destruct (String.prefix pat (String c s)); [discriminate H|].
  destruct (PyStr.find s pat); simpl in H; [discriminate H | auto].
Qed.

Lemma contains_prefix (pat w : string) : PyStr.contains (pat +:+ w) pat = true.
Proof.
  unfold PyStr.contains.
  assert (Hf : PyStr.find (pat +:+ w) pat = Some 0).
  { destruct (pat +:+ w) as [|c s] eqn:E.
    - change (PyStr.find "" pat) with (if String.prefix pat "" then Some 0 else None).
      rewrite <- E, prefix_append_self. reflexivity.
    - rewrite find_cons, <- E, prefix_append_self. reflexivity. }
  rewrite Hf. reflexivity.
Qed.

(** An occurrence of the placeholder cannot start inside a piece free of
    it and run into a following placeholder: ["["] occurs only at its
    start, and [p] does not contain it. *)
Lemma token_no_straddle (p r : string) :
  p <> "" -> PyStr.contains p query_vector_token = false ->
  String.prefix query_vector_token (p +:+ query_vector_token +:+ r) = false.
Proof.
  intros Hne Hfree.
  destruct (String.prefix _ _) eqn:E; [|reflexivity]. exfalso.
  apply prefix_true_append in E as [R E].
  apply append_eq_append in E as [[w [Ht Hu]]|[w [Hp _]]].
  - destruct w as [|d w].
    + rewrite append_nil_r in Ht. subst p.
      rewrite <- (append_nil_r query_vector_token), contains_prefix in Hfree.
      discriminate.
    + simpl in Hu. injection Hu as <- _.
      destruct p as [|c p]; [congruence|].
      injection Ht as _ Ht.
      apply (f_equal (PyStr.has_char "["%char)) in Ht.
      rewrite has_char_append in Ht. simpl in Ht.
      rewrite orb_true_r in Ht. discriminate.
  - subst p. rewrite contains_prefix in Hfree. discriminate.
Qed.

Lemma replace_go_skip old new (p r : string) :
  PyStr.replace_go old new (String.length p) (p +:+ r)
  = PyStr.replace_go old new 0 r.
Proof. induction p as [|c p IH]; simpl; [reflexivity | exact IH]. Qed.

Lemma replace_go_cons old new c (s : string) :
  PyStr.replace_go old new 0 (String c s)
  = if String.prefix old (String c s)
    then new +:+ PyStr.replace_go old new (String.length old - 1) s
    else String c (PyStr.replace_go old new 0 s).
Proof. reflexivity. Qed.

Lemma replace_go_at_token c o new (r : string) :
  PyStr.replace_go (String c o) new 0 (String c o +:+ r)
  = new +:+ PyStr.replace_go (String c o) new 0 r.
Proof.
  change (String c o +:+ r) with (String c (o +:+ r)).
  rewrite replace_go_cons.
  change (String c (o +:+ r)) with (String c o +:+ r).
  rewrite (prefix_append_self (String c o) r).
  replace (String.length (String c o) - 1) with (String.length o) by (simpl; lia).
  rewrite replace_go_skip. reflexivity.
Qed.

Lemma replace_go_token_head new (r : string) :
  PyStr.replace_go query_vector_token new 0 (query_vector_token +:+ r)
  = new +:+ PyStr.replace_go query_vector_token new 0 r.
Proof. exact (replace_go_at_token "["%char "query_vector]" new r). Qed.

Lemma replace_go_free old new (p : string) :
  PyStr.contains p old = false -> PyStr.replace_go old new 0 p = p.
Proof.
  induction p as [|c p IH]; intros H; [reflexivity|].
  apply contains_cons_false in H as [Hpre Hrest].
  rewrite replace_go_cons, Hpre, (IH Hrest). reflexivity.
Qed.

Lemma replace_go_piece new (p r : string) :
  PyStr.contains p query_vector_token = false ->
  PyStr.replace_go query_vector_token new 0 (p +:+ query_vector_token +:+ r)
  = p +:+ PyStr.replace_go query_vector_token new 0 (query_vector_token +:+ r).
Proof.
  induction p as [|c p IH]; intros H; [reflexivity|].
  pose proof (token_no_straddle (String c p) r ltac:(discriminate) H) as Hns.
  apply contains_cons_false in H as [_ Hrest].
  change (String c p +:+ query_vector_token +:+ r)
    with (String c (p +:+ query_vector_token +:+ r)).
  change (String c p +:+ query_vector_token +:+ r)
    with (String c (p +:+ query_vector_token +:+ r)) in Hns.
  rewrite replace_go_cons, Hns, (IH Hrest). reflexivity.
Qed.

(** [s.replace(tok, e)] on [tok.join(pieces)] with placeholder-free
    pieces is [e.join(pieces)]. *)
Lemma replace_join new (pieces : list string) :
  Forall (fun p => PyStr.contains p query_vector_token = false) pieces ->
  PyStr.replace (PyStr.join query_vector_token pieces) query_vector_token new
  = PyStr.join new pieces.
Proof.
  unfold PyStr.replace.
  induction pieces as [|p [|p2 rest] IH]; intros Hall; [reflexivity| |].
  - inversion Hall; subst. simpl. by apply replace_go_free.
  - inversion Hall as [|? ? Hp Hrest]; subst.
    change (PyStr.join query_vector_token (p :: p2 :: rest))
      with (p +:+ query_vector_token +:+ PyStr.join query_vector_token (p2 :: rest)).
    rewrite (replace_go_piece new p _ Hp).
    rewrite replace_go_token_head, (IH Hrest). reflexivity.
Qed.

(* ================================================================== *)
(** * Claims *)

(** C1 (code_bug). Between [SQLQuery:] and [SQLResult:] the statement
    [SELECT * FROM `orders`] (a MySQL backtick-quoted identifier, no code
    fence) loses its final backtick: [.strip("```")] removes every
    backtick character at both ends, not a triple-backtick marker, while
    the spec's extraction keeps the statement as it is. *)
Lemma C1_backtick_identifier_cropped :
  parse_response_to_sql "SQLQuery: SELECT * FROM `orders` SQLResult: 5"
    = "SELECT * FROM `orders" /\
  extract_sql_spec "SQLQuery: SELECT * FROM `orders` SQLResult: 5"
    = "SELECT * FROM `orders`".
Proof. split; vm_compute; reflexivity. Qed.

(** C6 (code_bug, same defect as C1). Without a [SQLQuery:] label the
    whole completion is taken, but a statement ending in a backtick-quoted
    identifier loses that backtick. *)
Lemma C6_no_label_backtick_cropped :
  parse_response_to_sql "SELECT * FROM `orders`" = "SELECT * FROM `orders" /\
  extract_sql_spec "SELECT * FROM `orders`" = "SELECT * FROM `orders`".
Proof. split; vm_compute; reflexivity. Qed.

(** C3 (code_bug). A sqlalchemy [Table] entry in the [tables] list is
    never accepted: the fixed-list context provider raises
    [ValueError("Unknown table type: ...")] for it, whatever the name. *)
Lemma C3_table_entry_rejected db kw name rest :
  nlsql_get_table_context db kw (Some (SATable name :: rest))
    = Err (ValueError ("Unknown table type: " +:+ name)).
Proof. reflexivity. Qed.

(** C4 (confirmed). A custom response-synthesis prompt whose declared
    variables are not exactly the set {query_str, sql_query, context_str}
    makes the constructor raise a [ValueError]: no engine exists to run a
    query.  Every subclass constructor goes through this one. *)
Lemma C4_custom_prompt_rejected db tts kw synth p kind parser :
  same_names (template_vars p) ["query_str"; "sql_query"; "context_str"] = false ->
  exists msg,
    BaseSQLTableQueryEngine_init db tts kw synth (Some p) kind parser
      = Err (ValueError msg).
Proof.
  intros Hp. unfold BaseSQLTableQueryEngine_init, _validate_prompt. simpl.
  case_decide as Heq.
  - rewrite Heq in Hp. vm_compute in Hp. discriminate.
  - eexists. reflexivity.
Qed.

Lemma C4_custom_prompt_rejected_witness :
  same_names (template_vars (mkPrompt "Query: {query_str} SQL: {sql_query}" []))
    ["query_str"; "sql_query"; "context_str"] = false /\
  exists msg,
    BaseSQLTableQueryEngine_init orders_db None None true
      (Some (mkPrompt "Query: {query_str} SQL: {sql_query}" []))
      (NLSQLTables None) BaseParser = Err (ValueError msg).
Proof.
  split; [vm_compute; reflexivity|].
  apply C4_custom_prompt_rejected. vm_compute. reflexivity.
Defined.

(** C2 (confirmed). Synchronous or asynchronous, with synthesis enabled or
    disabled, a successful query's metadata maps ["sql_query"] to the SQL
    text that was executed, and keeps every execution-metadata entry with
    its value (execution metadata wins over the synthesizer's). *)
Lemma C2_metadata_has_executed_sql eng svc q r :
  (_query eng svc q = Ok r -> records_executed_sql eng svc (predict svc) q r) /\
  (_aquery eng svc q = Ok r -> records_executed_sql eng svc (apredict svc) q r).
Proof.
  split; intros H; unfold _query, _aquery in H;
    inv_bind H ctx Hctx;
    apply query_with_context_Ok in H;
    destruct H as (compl & raw & md & Hcompl & Hrun & Hoff & Hon);
    exists ctx, compl, raw, md; cbn zeta;
    (split; [exact Hctx|]); (split; [exact Hcompl|]); (split; [exact Hrun|]);
    (destruct (synthesize_response eng);
     [ destruct (Hon eq_refl) as (sr & _ & ->);
       split; [apply update_response_metadata_keeps; apply lookup_insert_eq|];
       intros k v Hk; by apply update_response_metadata_keeps
     | rewrite (Hoff eq_refl); simpl;
       split; [apply lookup_insert_eq | intros k v Hk; exact Hk] ]).
Qed.

Lemma C2_metadata_has_executed_sql_witness :
  exists r,
    _query (scenario_engine true) scenario_svc "How many rows in orders?" = Ok r /\
    records_executed_sql (scenario_engine true) scenario_svc (predict scenario_svc)
      "How many rows in orders?" r.
Proof.
  eexists. split.
  - reflexivity.
  - apply (proj1 (C2_metadata_has_executed_sql _ _ _ _)). reflexivity.
Defined.

(** C7 (confirmed). With synthesis disabled, a successful query (either
    path) returns the raw execution text verbatim, with the execution
    metadata plus the ["sql_query"] key as its metadata. *)
Lemma C7_no_synthesis_raw_result eng svc q r :
  synthesize_response eng = false ->
  (_query eng svc q = Ok r \/ _aquery eng svc q = Ok r) ->
  exists sql raw md,
    run_sql (sql_database eng) sql = Ok (raw, md) /\
    r = mkResponse raw (<["sql_query" := PyStr_v sql]> md).
Proof.
  intros Hs [H|H]; unfold _query, _aquery in H;
    inv_bind H ctx Hctx;
    apply query_with_context_Ok in H;
    destruct H as (compl & raw & md & _ & Hrun & Hoff & _);
    eexists _, raw, md; (split; [exact Hrun | exact (Hoff Hs)]).
Qed.

Lemma C7_no_synthesis_raw_result_witness :
  exists sql raw md,
    run_sql orders_db sql = Ok (raw, md) /\
    mkResponse "5" (<["sql_query" := PyStr_v "SELECT COUNT(*) FROM orders"]>
                      {["result" := PyObj 5]})
    = mkResponse raw (<["sql_query" := PyStr_v sql]> md).
Proof.
  apply (C7_no_synthesis_raw_result (scenario_engine false) scenario_svc
           "How many rows in orders?").
  - reflexivity.
  - left. vm_compute. reflexivity.
Defined.

(** C8 (corrected), counterexample. A table list that is supplied but
    empty is not honoured: [if self._tables:] is false for [[]], and the
    all-tables variant answers with every table of the database instead
    of an empty block. *)
Lemma C8_empty_list_uses_all_tables :
  nlsql_get_table_context orders_db ∅ (Some [])
    = Ok ("CREATE TABLE orders" +:+ blank_line +:+ "CREATE TABLE customers") /\
  nlsql_get_table_context orders_db ∅ (Some []) <> Ok (PyStr.join blank_line []).
Proof. split; vm_compute; [reflexivity | discriminate]. Qed.

(** C8 (corrected), amended claim. For a non-empty list of table names the
    per-table descriptions come in the list's order; with no list or an
    empty list, they come in the order of [get_usable_table_names]; the
    entries are joined with a blank line. *)
Lemma C8_context_order db kw names :
  (names <> [] ->
   nlsql_get_table_context db kw (Some (map TableName names))
     = Ok (PyStr.join blank_line (map (table_info_with_kwargs db kw) names))) /\
  nlsql_get_table_context db kw None
    = Ok (PyStr.join blank_line
            (map (table_info_with_kwargs db kw) (get_usable_table_names db))) /\
  nlsql_get_table_context db kw (Some [])
    = Ok (PyStr.join blank_line
            (map (table_info_with_kwargs db kw) (get_usable_table_names db))).
Proof.
  split; [|split; reflexivity].
  intros Hne. destruct names as [|n names]; [congruence|].
  unfold nlsql_get_table_context. cbv beta iota.
  change (fixed_list_infos db kw (TableName n :: map TableName names))
    with (fixed_list_infos db kw (map TableName (n :: names))).
  rewrite fixed_list_infos_names. reflexivity.
Qed.

Lemma C8_context_order_witness :
  ["customers"; "orders"] <> [] /\
  nlsql_get_table_context orders_db ∅ (Some (map TableName ["customers"; "orders"]))
    = Ok (PyStr.join blank_line
            (map (table_info_with_kwargs orders_db ∅) ["customers"; "orders"])).
Proof.
  split; [discriminate|].
  apply (proj1 (C8_context_order orders_db ∅ ["customers"; "orders"])).
  discriminate.
Defined.

(** C9 (confirmed). When the retriever returns no table and no prefix is
    configured, the context block is the empty string and both query
    paths go on to the generation stage with it. *)
Lemma C9_empty_retrieval_empty_context eng svc q retr :
  table_context eng = RetrieverTables retr None ->
  retr q = [] ->
  _get_table_context eng q = Ok "" /\
  _query eng svc q = query_with_context (predict svc) (synthesize svc) eng svc q "" /\
  _aquery eng svc q = query_with_context (apredict svc) (asynthesize svc) eng svc q "".
Proof.
  intros Hk Hr.
  assert (Hc : _get_table_context eng q = Ok "").
  { unfold _get_table_context, retriever_get_table_context. rewrite Hk, Hr.
    reflexivity. }
  unfold _query, _aquery. rewrite Hc. auto.
Qed.

Lemma C9_empty_retrieval_empty_context_witness :
  table_context retriever_engine = RetrieverTables empty_retriever None /\
  empty_retriever "How many rows in orders?" = [] /\
  _get_table_context retriever_engine "How many rows in orders?" = Ok "" /\
  _query retriever_engine scenario_svc "How many rows in orders?"
    = query_with_context (predict scenario_svc) (synthesize scenario_svc)
        retriever_engine scenario_svc "How many rows in orders?" "" /\
  _aquery retriever_engine scenario_svc "How many rows in orders?"
    = query_with_context (apredict scenario_svc) (asynthesize scenario_svc)
        retriever_engine scenario_svc "How many rows in orders?" "".
Proof.
  split; [reflexivity|]. split; [reflexivity|].
  apply C9_empty_retrieval_empty_context with (retr := empty_retriever);
    reflexivity.
Defined.

(** C10 (confirmed). The legacy engine's [_aquery] never synthesizes: it
    returns the raw execution text with the ["sql_query"] key, while its
    [_query] (same collaborators, synthesis enabled) returns the text of
    the synthesis call, so the two differ whenever that text is not the
    raw result. *)
Lemma C10_legacy_aquery_skips_synthesis eng svc q r :
  nl_aquery eng svc q = Ok r -> legacy_async_report eng svc q r.
Proof.
  unfold nl_aquery, legacy_async_report. intros H.
  inv_bind H ctx Hctx. inv_bind H compl Hcompl. inv_bind H run Hrun.
  destruct run as [raw md]. simpl in H.
  exists ctx, compl, raw, md. cbn zeta.
  split; [exact Hctx|]. split; [exact Hcompl|]. split; [exact Hrun|].
  split; [congruence|].
  intros Hs Hp s Hsynth.
  assert (Hq : nl_query eng svc q
               = Ok (mkResponse s (<["sql_query" := PyStr_v (nl_parse_response_to_sql compl)]> md))).
  { unfold nl_query. rewrite Hctx. simpl. rewrite Hp in Hcompl. rewrite Hcompl.
    simpl. rewrite Hrun. simpl. rewrite Hs, Hsynth. reflexivity. }
  split; [exact Hq|].
  intros Hne. rewrite Hq. injection H as <-. intros Heq. injection Heq.
  congruence.
Qed.

Lemma C10_legacy_aquery_skips_synthesis_witness :
  exists r,
    nl_aquery scenario_nl_engine scenario_svc "How many rows in orders?" = Ok r /\
    legacy_async_report scenario_nl_engine scenario_svc "How many rows in orders?" r.
Proof.
  eexists. split.
  - reflexivity.
  - apply C10_legacy_aquery_skips_synthesis. reflexivity.
Defined.

(** C5 (confirmed). The vector-aware extraction is the placeholder
    substitution applied to the cleaned SQL: when the cleaned SQL has no
    ["[query_vector]"] it is returned unchanged (and substituting again
    changes nothing); when the cleaned SQL is the placeholder-free pieces
    joined by the placeholder, every occurrence is replaced by the
    stringified embedding of the question. *)
Lemma C5_query_vector_substitution svc q response pieces :
  (PyStr.contains (parse_response_to_sql response) query_vector_token = false ->
   pgvector_parse_response_to_sql svc response q = parse_response_to_sql response /\
   substitute_query_vector svc q (pgvector_parse_response_to_sql svc response q)
     = pgvector_parse_response_to_sql svc response q) /\
  (Forall (fun p => PyStr.contains p query_vector_token = false) pieces ->
   parse_response_to_sql response = PyStr.join query_vector_token pieces ->
   pgvector_parse_response_to_sql svc response q
     = PyStr.join (query_embedding_str svc q) pieces).
Proof.
  rewrite pgvector_parse_is_substitution. unfold substitute_query_vector, PyStr.replace.
  split.
  - intros Hfree. rewrite !(replace_go_free _ _ _ Hfree). auto.
  - intros Hall Hsql. rewrite Hsql. exact (replace_join _ pieces Hall).
Qed.

Lemma C5_query_vector_substitution_witness :
  pgvector_parse_response_to_sql scenario_svc
    "SQLQuery: SELECT name FROM items LIMIT 5 SQLResult: x" "q"
    = "SELECT name FROM items LIMIT 5" /\
  pgvector_parse_response_to_sql scenario_svc
    "SQLQuery: SELECT name FROM items ORDER BY embedding <-> '[query_vector]' LIMIT 5 SQLResult: x"
    "q"
    = PyStr.join "[0.5, 0.25]"
        ["SELECT name FROM items ORDER BY embedding <-> '"; "' LIMIT 5"].
Proof.
  split.
  - apply (C5_query_vector_substitution scenario_svc "q"
             "SQLQuery: SELECT name FROM items LIMIT 5 SQLResult: x" []).
    vm_compute. reflexivity.
  - apply (C5_query_vector_substitution scenario_svc "q"
             "SQLQuery: SELECT name FROM items ORDER BY embedding <-> '[query_vector]' LIMIT 5 SQLResult: x"
             ["SELECT name FROM items ORDER BY embedding <-> '"; "' LIMIT 5"]).
    + repeat constructor.
    + vm_compute. reflexivity.
Defined.

(* ================================================================== *)
(** * Further properties of the code *)

(* ------------------------------------------------------------------ *)
(** ** Lemmas on stripping, cropping and searching *)

Lemma last_char_snoc (a : string) c : last_char (a +:+ String c "") = Some c.
Proof.
  induction a as [|d a IH]; [reflexivity|].
  change (String d a +:+ String c "") with (String d (a +:+ String c "")).
  destruct (a +:+ String c "") as [|e t] eqn:E.
  - destruct a; simpl in E; discriminate E.
  - exact IH.
Qed.

Lemma lstrip_shape p (s : string) :
  PyStr.lstrip_by p s = "" \/
  exists c t, PyStr.lstrip_by p s = String c t /\ p c = false.
Proof.
  induction s as [|c s IH]; simpl; [auto|].
  destruct (p c) eqn:E; [exact IH|]. right. eauto.
Qed.

Lemma rstrip_head p c (s : string) :
  PyStr.rstrip_by p (String c s) = "" \/
  exists t, PyStr.rstrip_by p (String c s) = String c t.
Proof.
  simpl. destruct (PyStr.rstrip_by p s); [destruct (p c)|]; eauto.
Qed.

Lemma rstrip_shape p (s : string) :
  PyStr.rstrip_by p s = "" \/
  exists a c, PyStr.rstrip_by p s = a +:+ String c "" /\ p c = false.
Proof.
  induction s as [|d s IH]; simpl; [auto|].
  destruct IH as [H|[a [c [H Hc]]]]; rewrite H.
  - destruct (p d) eqn:E; [auto|]. right. exists "", d. auto.
  - right. exists (String d a), c. split; [destruct a; reflexivity | exact Hc].
Qed.

(** Neither end of a [strip_by p] result satisfies [p]. *)
Lemma strip_by_ends p (s : string) c :
  first_char (PyStr.strip_by p s) = Some c \/
  last_char (PyStr.strip_by p s) = Some c -> p c = false.
Proof.
  unfold PyStr.strip_by. intros Hc.
  destruct (lstrip_shape p s) as [H|[d [t [H Hd]]]]; rewrite H in Hc.
  - destruct Hc as [Hc|Hc]; discriminate Hc.
  - destruct Hc as [Hc|Hc].
    + destruct (rstrip_head p d t) as [E|[u E]]; rewrite E in Hc;
        simpl in Hc; congruence.
    + destruct (rstrip_shape p (String d t)) as [E|[a [e [E He]]]];
        rewrite E in Hc; [discriminate Hc|].
      rewrite last_char_snoc in Hc. congruence.
Qed.

Lemma prefix_append_mono (pat a t : string) :
  String.prefix pat a = true -> String.prefix pat (a +:+ t) = true.
Proof.
  revert a. induction pat as [|c pat IH]; intros a H.
  - destruct (a +:+ t); reflexivity.
  - destruct a as [|d a]; [discriminate H|]. simpl in *.
    destruct (ascii_dec c d); [exact (IH a H) | discriminate H].
Qed.

Lemma contains_cons c (s pat : string) :
  PyStr.contains (String c s) pat
  = String.prefix pat (String c s) || PyStr.contains s pat.
Proof.
  unfold PyStr.contains. rewrite find_cons.
  destruct (String.prefix pat (String c s)); [reflexivity|].
  destruct (PyStr.find s pat); reflexivity.
Qed.

Lemma contains_empty (pat : string) : pat <> "" -> PyStr.contains "" pat = false.
Proof. intros H. destruct pat; [congruence | reflexivity]. Qed.

Lemma contains_empty_pat (s : string) : PyStr.contains s "" = true.
Proof. destruct s; reflexivity. Qed.

Lemma contains_append_r (a t pat : string) :
  PyStr.contains (a +:+ t) pat = false -> PyStr.contains t pat = false.
Proof.
  induction a as [|c a IH]; intros H; [exact H|].
  change (String c a +:+ t) with (String c (a +:+ t)) in H.
  rewrite contains_cons in H. apply orb_false_iff in H as [_ H]. exact (IH H).
Qed.

Lemma contains_append_l (a t pat : string) :
  PyStr.contains (a +:+ t) pat = false -> PyStr.contains a pat = false.
Proof.
  induction a as [|c a IH]; intros H.
  - destruct pat as [|d pat]; [|reflexivity].
    rewrite contains_empty_pat in H. discriminate H.
  - change (String c a +:+ t) with (String c (a +:+ t)) in H.
    rewrite contains_cons in H. apply orb_false_iff in H as [Hp H].
    rewrite contains_cons, (IH H), orb_false_r.
    destruct (String.prefix pat (String c a)) eqn:E; [|reflexivity].
    apply (prefix_append_mono _ _ t) in E.
    change (String c a +:+ t) with (String c (a +:+ t)) in E. congruence.
Qed.

Lemma take_drop n (s : string) : PyStr.take n s +:+ PyStr.drop n s = s.
Proof.
  revert s. induction n as [|n IH]; intros [|c s]; try reflexivity.
  simpl. rewrite IH. reflexivity.
Qed.

Lemma drop_append (a s : string) : PyStr.drop (String.length a) (a +:+ s) = s.
Proof. induction a as [|c a IH]; [reflexivity | exact IH]. Qed.

(** The prefix [s[:j]] before the first occurrence of [pat] does not
    contain [pat]. *)
Lemma find_take (s pat : string) j :
  pat <> "" -> PyStr.find s pat = Some j ->
  PyStr.contains (PyStr.take j s) pat = false.
Proof.
  intros Hpat. revert j. induction s as [|c s IH]; intros j H.
  - destruct pat; [congruence|]. discriminate H.
  - rewrite find_cons in H. destruct (String.prefix pat (String c s)) eqn:E.
    + injection H as <-. exact (contains_empty pat Hpat).
    + destruct (PyStr.find s pat) as [j'|] eqn:F; [|discriminate H].
      injection H as <-.
      change (PyStr.take (S j') (String c s)) with (String c (PyStr.take j' s)).
      rewrite contains_cons, (IH j' eq_refl), orb_false_r.
      destruct (String.prefix pat (String c (PyStr.take j' s))) eqn:E'; [|reflexivity].
      apply (prefix_append_mono _ _ (PyStr.drop j' s)) in E'.
      change (String c (PyStr.take j' s) +:+ PyStr.drop j' s)
        with (String c (PyStr.take j' s +:+ PyStr.drop j' s)) in E'.
      rewrite take_drop in E'. congruence.
Qed.

Lemma lstrip_suffix p (s : string) : exists a, s = a +:+ PyStr.lstrip_by p s.
Proof.
  induction s as [|c s [a IH]]; [exists ""; reflexivity|]. simpl.
  destruct (p c); [exists (String c a); simpl; congruence | exists ""; reflexivity].
Qed.

Lemma rstrip_prefix p (s : string) : exists t, s = PyStr.rstrip_by p s +:+ t.
Proof.
  induction s as [|c s [t IH]]; [exists ""; reflexivity|]. simpl.
  destruct (PyStr.rstrip_by p s) as [|d r] eqn:E; simpl in IH.
  - destruct (p c).
    + exists (String c s). reflexivity.
    + exists t. simpl. congruence.
  - exists t. simpl. congruence.
Qed.

(** Stripping never creates an occurrence. *)
Lemma contains_strip_by p (s pat : string) :
  PyStr.contains s pat = false -> PyStr.contains (PyStr.strip_by p s) pat = false.
Proof.
  intros H. unfold PyStr.strip_by.
  destruct (lstrip_suffix p s) as [a Ha]. rewrite Ha in H.
  apply contains_append_r in H.
  destruct (rstrip_prefix p (PyStr.lstrip_by p s)) as [t Ht]. rewrite Ht in H.
  exact (contains_append_l _ _ _ H).
Qed.

Lemma crop_result_free (s : string) :
  PyStr.contains
    (match PyStr.find s "SQLResult:" with
     | Some j => PyStr.take j s
     | None => s
     end) "SQLResult:" = false.
Proof.
  destruct (PyStr.find s "SQLResult:") as [j|] eqn:F.
  - apply (find_take s); [discriminate | exact F].
  - unfold PyStr.contains. rewrite F. reflexivity.
Qed.

(** [rstrip] stops at a character it keeps. *)
Lemma rstrip_append p (a x : string) c :
  p c = false ->
  PyStr.rstrip_by p (a +:+ String c x) = a +:+ String c (PyStr.rstrip_by p x).
Proof.
  intros Hc. induction a as [|d a IH].
  - simpl. destruct (PyStr.rstrip_by p x); [rewrite Hc|]; reflexivity.
  - change (String d a +:+ String c x) with (String d (a +:+ String c x)).
    simpl. rewrite IH. destruct a; reflexivity.
Qed.

Lemma find_label_result (r : string) :
  PyStr.find ("SQLQuery:" +:+ r) "SQLResult:"
  = option_map (Nat.add 9) (PyStr.find r "SQLResult:").
Proof. simpl. destruct (PyStr.find r "SQLResult:"); reflexivity. Qed.

Lemma take_label j (r : string) :
  PyStr.take (Nat.add 9 j) ("SQLQuery:" +:+ r) = "SQLQuery:" +:+ PyStr.take j r.
Proof. reflexivity. Qed.

Lemma strip_label (u : string) :
  PyStr.strip ("SQLQuery:" +:+ u)
  = "SQLQuery:" +:+ PyStr.rstrip_by PyStr.isspace u.
Proof.
  unfold PyStr.strip, PyStr.strip_by.
  change (PyStr.lstrip_by PyStr.isspace ("SQLQuery:" +:+ u))
    with ("SQLQuery" +:+ String ":" u).
  rewrite rstrip_append; reflexivity.
Qed.

(** An occurrence of [String c o], whose first character [c] does not
    occur again in it, cannot start inside a piece free of it and run
    into a following occurrence. *)
Lemma no_straddle c o (p r : string) :
  PyStr.has_char c o = false ->
  p <> "" -> PyStr.contains p (String c o) = false ->
  String.prefix (String c o) (p +:+ String c o +:+ r) = false.
Proof.
  intros Ho Hne Hfree.
  destruct (String.prefix _ _) eqn:E; [|reflexivity]. exfalso.
  apply prefix_true_append in E as [R E].
  apply append_eq_append in E as [[w [Ht Hu]]|[w [Hp _]]].
  - destruct w as [|d w].
    + rewrite append_nil_r in Ht. subst p.
      pose proof (contains_prefix (String c o) "") as Hc.
      rewrite append_nil_r in Hc. congruence.
    + simpl in Hu. injection Hu as <- _.
      destruct p as [|e p]; [congruence|].
      injection Ht as _ Ht.
      apply (f_equal (PyStr.has_char c)) in Ht.
      rewrite has_char_append in Ht. simpl in Ht.
      destruct (ascii_dec c c) as [_|]; [|congruence].
      rewrite orb_true_r, Ho in Ht. discriminate.
  - subst p. rewrite contains_prefix in Hfree. discriminate.
Qed.

Lemma find_first_occurrence c o (p r : string) :
  PyStr.has_char c o = false ->
  PyStr.contains p (String c o) = false ->
  PyStr.find (p +:+ String c o +:+ r) (String c o) = Some (String.length p).
Proof.
  intros Ho. induction p as [|d p IH]; intros H.
  - change ("" +:+ String c o +:+ r) with (String c (o +:+ r)).
    rewrite find_cons.
    change (String c (o +:+ r)) with (String c o +:+ r).
    rewrite prefix_append_self. reflexivity.
  - pose proof (no_straddle c o (String d p) r Ho ltac:(discriminate) H) as Hns.
    apply contains_cons_false in H as [_ Hrest].
    change (String d p +:+ String c o +:+ r) with (String d (p +:+ String c o +:+ r)).
    change (String d p +:+ String c o +:+ r)
      with (String d (p +:+ String c o +:+ r)) in Hns.
    rewrite find_cons, Hns, (IH Hrest). reflexivity.
Qed.

(* ------------------------------------------------------------------ *)
(** ** Lemmas on construction, table context and the orchestrator *)






(* ------------------------------------------------------------------ *)
(** ** SQL extraction *)

(** X1. The SQL extracted by the orchestrator's parser and by the legacy
    parser never begins or ends with a whitespace character. *)
Lemma X1_extracted_sql_trimmed (response : string) :
  is_trimmed (parse_response_to_sql response) /\
  is_trimmed (nl_parse_response_to_sql response).
Proof.
  split; intros c Hc.
  - exact (strip_by_ends PyStr.isspace _ c Hc).
  - exact (strip_by_ends PyStr.isspace _ c Hc).
Qed.

(** X2. The SQL extracted by the orchestrator's parser and by the legacy
    parser never contains the marker [SQLResult:]: the text is cut at its
    first occurrence and only stripped afterwards. *)
Lemma X2_extracted_sql_has_no_result_marker (response : string) :
  PyStr.contains (parse_response_to_sql response) "SQLResult:" = false /\
  PyStr.contains (nl_parse_response_to_sql response) "SQLResult:" = false.
Proof.
  split.
  - unfold parse_response_to_sql, PyStr.strip, PyStr.strip_chars. cbn zeta.
    apply contains_strip_by, contains_strip_by, contains_strip_by, crop_result_free.
  - unfold nl_parse_response_to_sql, PyStr.strip. cbn zeta.
    apply contains_strip_by, crop_result_free.
Qed.

(** X3. The legacy parser does not remove a [SQLQuery:] label: for a
    completion that begins with it, the extracted SQL begins with it. *)
Lemma X3_legacy_keeps_query_label (r : string) :
  exists t, nl_parse_response_to_sql ("SQLQuery:" +:+ r) = "SQLQuery:" +:+ t.
Proof.
  unfold nl_parse_response_to_sql. rewrite find_label_result.
  destruct (PyStr.find r "SQLResult:") as [j|]; cbn [option_map].
  - rewrite take_label, strip_label. eexists. reflexivity.
  - rewrite strip_label. eexists. reflexivity.
Qed.

(** X4. Whatever comes before the first [SQLQuery:] label is ignored by
    the orchestrator's parser. *)
Lemma X4_text_before_label_ignored (a b : string) :
  PyStr.contains a "SQLQuery:" = false ->
  parse_response_to_sql (a +:+ "SQLQuery:" +:+ b)
  = parse_response_to_sql ("SQLQuery:" +:+ b).
Proof.
  intros Ha. unfold parse_response_to_sql.
  rewrite (find_first_occurrence "S" "QLQuery:" a b eq_refl Ha).
  rewrite (find_first_occurrence "S" "QLQuery:" "" b eq_refl eq_refl : PyStr.find ("SQLQuery:" +:+ b) "SQLQuery:" = Some 0).
  rewrite drop_append. reflexivity.
Qed.

Lemma X4_text_before_label_ignored_witness :
  PyStr.contains "Let me think. " "SQLQuery:" = false /\
  parse_response_to_sql ("Let me think. " +:+ "SQLQuery:" +:+ " SELECT 1 SQLResult: 1")
  = parse_response_to_sql ("SQLQuery:" +:+ " SELECT 1 SQLResult: 1").
Proof.
  split; [reflexivity|].
  apply X4_text_before_label_ignored. reflexivity.
Defined.

(** X5. When the cleaned SQL holds no [[query_vector]] placeholder, the
    vector-aware parser returns exactly what the base parser returns. *)
Lemma X5_pgvector_without_placeholder svc (response q : string) :
  PyStr.contains (parse_response_to_sql response) query_vector_token = false ->
  pgvector_parse_response_to_sql svc response q = parse_response_to_sql response.
Proof.
  intros H. rewrite pgvector_parse_is_substitution.
  unfold substitute_query_vector, PyStr.replace.
  exact (replace_go_free _ _ _ H).
Qed.

Lemma X5_pgvector_without_placeholder_witness :
  PyStr.contains (parse_response_to_sql completion_scenario) query_vector_token = false /\
  pgvector_parse_response_to_sql scenario_svc completion_scenario "How many orders?"
  = parse_response_to_sql completion_scenario.
Proof.
  split; [vm_compute; reflexivity|].
  apply X5_pgvector_without_placeholder. vm_compute. reflexivity.
Defined.

(* ------------------------------------------------------------------ *)
(** ** Construction *)



(* ------------------------------------------------------------------ *)
(** ** Table context *)



Lemma join_head sep (x : string) l : String.prefix x (PyStr.join sep (x :: l)) = true.
Proof.
  destruct l as [|y l].
  - change (PyStr.join sep [x]) with x.
    pose proof (prefix_append_self x "") as H. rewrite append_nil_r in H. exact H.
  - change (PyStr.join sep (x :: y :: l)) with (x +:+ (sep +:+ PyStr.join sep (y :: l))).
    apply prefix_append_self.
Qed.

(** X8. With a prefix configured, the retriever context block begins
    with the prefix, and is exactly the prefix when nothing is retrieved. *)
Lemma X8_retriever_prefix_first db retr (p q : string) :
  String.prefix p (retriever_get_table_context db retr (Some p) q) = true /\
  (retr q = [] -> retriever_get_table_context db retr (Some p) q = p).
Proof.
  unfold retriever_get_table_context. cbn zeta. cbn [app]. split.
  - apply join_head.
  - intros H. rewrite H. reflexivity.
Qed.

Lemma X8_retriever_prefix_first_witness :
  empty_retriever "How many orders?" = [] /\
  retriever_get_table_context orders_db empty_retriever (Some "Tables:")
    "How many orders?" = "Tables:".
Proof.
  split; [reflexivity|].
  apply (proj2 (X8_retriever_prefix_first orders_db empty_retriever "Tables:" _)).
  reflexivity.
Defined.

(* ------------------------------------------------------------------ *)
(** ** The query orchestrator *)



(** X10. With synthesis enabled, a successful synchronous query returns
    the synthesizer's text, produced from the single raw execution result
    with the prompt bound to the executed SQL; its metadata is the
    execution metadata (with ["sql_query"]) and, on the other keys, the
    synthesizer's. *)
Lemma X10_synthesized_response eng svc q r :
  synthesize_response eng = true -> _query eng svc q = Ok r ->
  synthesis_report eng svc q r.
Proof.
  intros Hs H. unfold _query in H.
  inv_bind H ctx Hctx. apply query_with_context_Ok in H.
  destruct H as (compl & raw & md & Hcompl & Hrun & _ & Hon).
  destruct (Hon Hs) as (sr & Hsr & ->).
  exists ctx, compl, raw, md, sr. cbn zeta.
  repeat split; try assumption.
  intros k. unfold update_response_metadata, dict_update. cbn [metadata].
  rewrite lookup_union. destruct (_ !! k), (metadata sr !! k); reflexivity.
Qed.

Lemma X10_synthesized_response_witness :
  exists r,
    synthesize_response (scenario_engine true) = true /\
    _query (scenario_engine true) scenario_svc "How many orders?" = Ok r /\
    synthesis_report (scenario_engine true) scenario_svc "How many orders?" r.
Proof.
  eexists. split; [reflexivity|]. split; [reflexivity|].
  apply X10_synthesized_response; reflexivity.
Defined.

(* ------------------------------------------------------------------ *)
(** ** The legacy engine *)

(** X11. A legacy engine with neither a context string nor a context
    dict fails every query, synchronous or asynchronous, with the same
    [ValueError], before any model call. *)
Lemma X11_legacy_no_context_fails eng svc q :
  nl_context_str eng = None -> nl_context_dict eng = None ->
  exists msg,
    nl_get_table_context eng = Err (ValueError msg) /\
    nl_query eng svc q = Err (ValueError msg) /\
    nl_aquery eng svc q = Err (ValueError msg).
Proof.
  intros H1 H2. unfold nl_query, nl_aquery, nl_get_table_context.
  rewrite H1, H2. eexists. repeat split.
Qed.

Lemma X11_legacy_no_context_fails_witness :
  nl_context_str no_context_nl_engine = None /\
  nl_context_dict no_context_nl_engine = None /\
  exists msg,
    nl_get_table_context no_context_nl_engine = Err (ValueError msg) /\
    nl_query no_context_nl_engine scenario_svc "How many orders?" = Err (ValueError msg) /\
    nl_aquery no_context_nl_engine scenario_svc "How many orders?" = Err (ValueError msg).
Proof.
  split; [reflexivity|]. split; [reflexivity|].
  apply X11_legacy_no_context_fails; reflexivity.
Defined.

(** X12. With synthesis disabled, and an asynchronous predictor that
    agrees with the synchronous one, the legacy [_query] and [_aquery]
    return the same result. *)
Lemma X12_legacy_paths_agree_without_synthesis eng svc q :
  nl_synthesize_response eng = false -> apredict svc = predict svc ->
  nl_aquery eng svc q = nl_query eng svc q.
Proof.
  intros Hs Hp. unfold nl_aquery, nl_query. rewrite Hp, Hs.
  destruct (nl_get_table_context eng); cbn [bind]; [|reflexivity].
  destruct (predict _ _); cbn [bind]; [|reflexivity].
  destruct (run_sql _ _); reflexivity.
Qed.

Lemma X12_legacy_paths_agree_without_synthesis_witness :
  nl_synthesize_response plain_nl_engine = false /\
  apredict scenario_svc = predict scenario_svc /\
  nl_aquery plain_nl_engine scenario_svc "How many orders?"
  = nl_query plain_nl_engine scenario_svc "How many orders?".
Proof.
  split; [reflexivity|]. split; [reflexivity|].
  apply X12_legacy_paths_agree_without_synthesis; reflexivity.
Defined.
